(** * epi-quark: the public interface [epiquark/api.py] and the scoring
      engine it drives.

    The interface ([score], [conf_matrix], [_check_threshs],
    [_ThreshRequired] and the metric adapters) is embedded from
    [src/epiquark/api.py].  The engine module ([scorer]: [ScoreCalculator],
    [Score], [EpiMetrics], [Timeliness]) is imported by the interface and
    exercised by the tests but its source is not part of the tree; the parts
    of it that are needed are modelled from the specification and from what
    the tests pin down, and every such definition says so. *)

From Stdlib Require Import ZArith QArith List String Bool Lia Lqa.
From Stdlib Require Import DecimalString.
Import ListNotations.
Open Scope string_scope.

(* ================================================================= *)
(** * Python values *)

(** The two exception classes the interface raises. *)
Inductive exn : Type :=
| ValueError (msg : string)
| KeyError (msg : string).

(** A call either raises or returns. *)
Definition result (A : Type) : Type := (exn + A)%type.

(** A float is modelled by its exact rational value, or one of the three
    special values.  Every float constant of the interface (0.0, 0.5, 1.0)
    is exactly representable. *)
Inductive pyfloat : Type :=
| Finite (q : Q)
| Inf
| NegInf
| NaN.

(** Thresholds are annotated [Optional[float]], but [conf_matrix] stores the
    int literal [0]; both kinds of number are kept apart. *)
Inductive number : Type :=
| Int (z : Z)
| Float (x : pyfloat).

(** Truth value of [x] in [x or y]: zero of either kind is falsy, every other
    number (nan and the infinities included) is truthy. *)
Definition number_truthy (x : number) : bool :=
  match x with
  | Int z => negb (z =? 0)%Z
  | Float (Finite q) => negb (Qeq_bool q 0)
  | Float _ => true
  end.

(** [x or default] for an optional number: [None] is falsy as well. *)
Definition or_default (x : option number) (default : number) : number :=
  match x with
  | Some v => if number_truthy v then v else default
  | None => default
  end.

Definition is_not_None {A : Type} (x : option A) : bool :=
  match x with
  | Some _ => true
  | None => false
  end.

(** numpy scalar division: a zero divisor gives nan or a signed infinity
    (with a warning), never an exception. *)
Definition np_div (a b : Q) : pyfloat :=
  if Qeq_bool b 0 then
    if Qeq_bool a 0 then NaN
    else if Qle_bool 0 a then Inf else NegInf
  else Finite (a / b).

(** [d[key]] on a dict kept as an association list in insertion order. *)
Fixpoint lookup {A : Type} (key : string) (d : list (string * A)) : option A :=
  match d with
  | [] => None
  | (k, v) :: d' => if String.eqb key k then Some v else lookup key d'
  end.

Definition keys {A : Type} (d : list (string * A)) : list string :=
  map fst d.

(** [needle in haystack] for strings; also what [re.search] decides for a
    pattern without metacharacters. *)
Fixpoint is_infix (needle haystack : string) : bool :=
  if String.prefix needle haystack then true
  else match haystack with
       | EmptyString => false
       | String _ rest => is_infix needle rest
       end.

Definition str_of_nat (n : nat) : string :=
  NilEmpty.string_of_uint (Nat.to_uint n).

(* ================================================================= *)
(** * State and exceptions

    A call runs against the interpreter's store (everything that outlives
    the call: the objects its arguments refer to, module and class
    attributes) and either raises or returns. *)

Definition M (Store A : Type) : Type := Store -> result A * Store.

Definition ret {Store A : Type} (a : A) : M Store A :=
  fun s => (inr a, s).

Definition raise {Store A : Type} (e : exn) : M Store A :=
  fun s => (inl e, s).

Definition lift {Store A : Type} (r : result A) : M Store A :=
  fun s => (r, s).

Definition bind {Store A B : Type} (m : M Store A) (k : A -> M Store B)
  : M Store B :=
  fun s =>
    match m s with
    | (inl e, s') => (inl e, s')
    | (inr a, s') => k a s'
    end.

Declare Scope py_scope.
Delimit Scope py_scope with py.
Notation "x <- m ;; k" := (bind m (fun x => k))
  (at level 61, m at next level, right associativity) : py_scope.
Notation "m ;; k" := (bind m (fun _ => k))
  (at level 61, right associativity) : py_scope.

(** The same for pure code that can only raise. *)
Definition rbind {A B : Type} (r : result A) (k : A -> result B) : result B :=
  match r with
  | inl e => inl e
  | inr a => k a
  end.

(* ================================================================= *)
(** * [epiquark/api.py] *)

Module api.

(** Arrays handed to a metric: the true and the predicted column, and the
    optional [sample_weight]. *)
Definition array : Type := list Q.

(** What a metric returns: a scalar, or (for the confusion matrix) a
    two-dimensional array. *)
Inductive score_value : Type :=
| Scalar (x : pyfloat)
| Array2 (m : list (list Q)).

(** A metric callable [(true, pred, sample_weight) -> value]. *)
Definition Scorer : Type := array -> array -> option array -> result score_value.

(** [weighting: Optional[Union[str, np.ndarray]]]. *)
Inductive weighting_arg : Type :=
| WStr (s : string)
| WArray (a : array).

(** The functions of [sklearn.metrics] the interface uses.  They belong to a
    library outside the repository and are left abstract. *)
Class Sklearn : Type := {
  f1_score : Scorer;
  brier_score_loss : Scorer;
  roc_curve : array -> array -> option array -> result (array * array * array);
  auc : array -> array -> result score_value;
  confusion_matrix : array -> array -> option array -> result (list (list Q));
  matthews_corrcoef : Scorer;
  r2_score : Scorer;
  mean_squared_error : Scorer;
  mean_absolute_error : Scorer
}.

(** [scorer.ScoreCalculator] as the interface uses it: the constructor and
    the method [calc_score].  [DataFrame] is what a table argument is to the
    callee (an object reference), [Out] what [calc_score] returns. *)
Class ScoreCalculator (DataFrame Store Out : Type) : Type := {
  Calculator : Type;
  new : DataFrame -> DataFrame -> M Store Calculator;
  calc_score :
    Calculator -> Scorer -> option number -> option number ->
    option weighting_arg -> option (list (string * Q)) -> option string ->
    M Store Out
}.

Record _ThreshRequired : Type := {
  p_thresh : bool;
  p_hat_thresh : bool
}.

Definition _thresh_text (thresh : bool) : string :=
  if thresh then "requires" else "must not contain".

Definition check_threshs_correct (self : _ThreshRequired)
    (p_thresh_arg p_hat_thresh_arg : option number) : result unit :=
  let actual := (is_not_None p_thresh_arg, is_not_None p_hat_thresh_arg) in
  let threshs_correct :=
    Bool.eqb (fst actual) (p_thresh self)
    && Bool.eqb (snd actual) (p_hat_thresh self) in
  if negb threshs_correct then
    inl (ValueError
           ("This metric " ++ _thresh_text (p_thresh self) ++ " p_thresh "
            ++ "and " ++ _thresh_text (p_hat_thresh self) ++ " p_hat_thresh."))
  else inr tt.

Definition required_treshs : list (string * _ThreshRequired) :=
  [ ("f1", {| p_thresh := true; p_hat_thresh := true |});
    ("brier", {| p_thresh := true; p_hat_thresh := false |});
    ("auc", {| p_thresh := true; p_hat_thresh := false |});
    ("sensitivity", {| p_thresh := true; p_hat_thresh := true |});
    ("recall", {| p_thresh := true; p_hat_thresh := true |});
    ("tpr", {| p_thresh := true; p_hat_thresh := true |});
    ("specificity", {| p_thresh := true; p_hat_thresh := true |});
    ("tnr", {| p_thresh := true; p_hat_thresh := true |});
    ("fpr", {| p_thresh := true; p_hat_thresh := true |});
    ("fnr", {| p_thresh := true; p_hat_thresh := true |});
    ("precision", {| p_thresh := true; p_hat_thresh := true |});
    ("ppv", {| p_thresh := true; p_hat_thresh := true |});
    ("npv", {| p_thresh := true; p_hat_thresh := true |});
    ("matthews", {| p_thresh := true; p_hat_thresh := true |});
    ("r2", {| p_thresh := false; p_hat_thresh := false |});
    ("mse", {| p_thresh := false; p_hat_thresh := false |});
    ("mae", {| p_thresh := false; p_hat_thresh := false |}) ].

Definition _check_threshs (metric : string)
    (p_thresh_arg p_hat_thresh_arg : option number) : result unit :=
  match lookup metric required_treshs with
  | None =>
      inl (KeyError
             ("This metric is not recognized. "
              ++ "Please use one of the following: "
              ++ String.concat ", " (keys required_treshs)))
  | Some required_tresh =>
      check_threshs_correct required_tresh p_thresh_arg p_hat_thresh_arg
  end.

Section Metrics.
Context {sk : Sklearn}.

(** [tn, fp, fn, tp = confusion_matrix(...).ravel()]: the unpacking raises
    unless the flattened matrix has exactly four entries. *)
Definition ravel (m : list (list Q)) : list Q := List.concat m.

Definition unpack4 (xs : list Q) : result (Q * Q * Q * Q) :=
  match xs with
  | [tn; fp; fn; tp] => inr (tn, fp, fn, tp)
  | _ =>
      if Nat.ltb (List.length xs) 4 then
        inl (ValueError
               ("not enough values to unpack (expected 4, got "
                ++ str_of_nat (List.length xs) ++ ")"))
      else inl (ValueError "too many values to unpack (expected 4)")
  end.

Definition ravelled_confusion (true pred : array)
    (sample_weight : option array) : result (Q * Q * Q * Q) :=
  rbind (confusion_matrix true pred sample_weight)
        (fun m => unpack4 (ravel m)).

Definition _sensitivity : Scorer := fun true pred sample_weight =>
  rbind (ravelled_confusion true pred sample_weight)
        (fun '(tn, fp, fn, tp) => inr (Scalar (np_div tp (tp + fn)))).

Definition _specificity : Scorer := fun true pred sample_weight =>
  rbind (ravelled_confusion true pred sample_weight)
        (fun '(tn, fp, fn, tp) => inr (Scalar (np_div tn (tn + fp)))).

Definition _fpr : Scorer := fun true pred sample_weight =>
  rbind (ravelled_confusion true pred sample_weight)
        (fun '(tn, fp, fn, tp) => inr (Scalar (np_div fp (fp + tn)))).

Definition _fnr : Scorer := fun true pred sample_weight =>
  rbind (ravelled_confusion true pred sample_weight)
        (fun '(tn, fp, fn, tp) => inr (Scalar (np_div fn (fn + tp)))).

Definition _auc : Scorer := fun true pred sample_weight =>
  rbind (roc_curve true pred sample_weight)
        (fun '(fpr, tpr, _) => auc fpr tpr).

Definition _precision : Scorer := fun true pred sample_weight =>
  rbind (ravelled_confusion true pred sample_weight)
        (fun '(tn, fp, fn, tp) => inr (Scalar (np_div tp (tp + fp)))).

Definition _npv : Scorer := fun true pred sample_weight =>
  rbind (ravelled_confusion true pred sample_weight)
        (fun '(tn, fp, fn, tp) => inr (Scalar (np_div tn (tn + fn)))).

(** [sk_metrics.confusion_matrix] passed as the scorer. *)
Definition confusion_matrix_scorer : Scorer := fun true pred sample_weight =>
  rbind (confusion_matrix true pred sample_weight)
        (fun m => inr (Array2 m)).

(** The dispatch table built inside [score]. *)
Definition metrics : list (string * Scorer) :=
  [ ("f1", f1_score);
    ("brier", brier_score_loss);
    ("auc", _auc);
    ("sensitivity", _sensitivity);
    ("recall", _sensitivity);
    ("tpr", _sensitivity);
    ("specificity", _specificity);
    ("tnr", _specificity);
    ("fpr", _fpr);
    ("fnr", _fnr);
    ("precision", _precision);
    ("ppv", _precision);
    ("npv", _npv);
    ("matthews", matthews_corrcoef);
    ("r2", r2_score);
    ("mse", mean_squared_error);
    ("mae", mean_absolute_error) ].

(** [metrics[metric]]: a missing key raises [KeyError(metric)]. *)
Definition getitem (d : list (string * Scorer)) (key : string)
  : result Scorer :=
  match lookup key d with
  | Some f => inr f
  | None => inl (KeyError key)
  end.

Context {DataFrame Store Out : Type}.
Context {engine : ScoreCalculator DataFrame Store Out}.

Local Open Scope py_scope.

Definition score (cases signals : DataFrame) (metric : string)
    (threshold_true threshold_pred : option number)
    (weighting : option weighting_arg)
    (time_space_weighting : option (list (string * Q)))
    (time_axis : option string) : M Store Out :=
  lift (_check_threshs metric threshold_true threshold_pred) ;;
  calculator <- new cases signals ;;
  scorer <- lift (getitem metrics metric) ;;
  calc_score calculator scorer threshold_true threshold_pred
             weighting time_space_weighting time_axis.

Definition conf_matrix (cases signals : DataFrame)
    (threshold_true threshold_pred : option number)
    (weighting : option weighting_arg)
    (time_space_weighting : option (list (string * Q)))
    (time_axis : option string) : M Store Out :=
  let threshold_true :=
    match threshold_true with
    | None => Int 0
    | Some t => t
    end in
  let threshold_pred := or_default threshold_pred (Float (Finite (1 # 2))) in
  calculator <- new cases signals ;;
  calc_score calculator confusion_matrix_scorer
             (Some threshold_true) (Some threshold_pred)
             weighting time_space_weighting time_axis.

End Metrics.

End api.

(* ================================================================= *)
(** * The engine module [scorer]

    Its source is not in the tree.  What follows is modelled from the
    specification (sections 3, 4.1, 4.7 and 7) and from the messages and
    literal values the tests in [tests/test_scorer.py] and
    [tests/test_epi_metrics.py] fix. *)

Module scorer.

(** The dtype of a [value] column. *)
Inductive dtype : Type :=
| dt_int64
| dt_float64
| dt_object.

(** One row of a long-format table: the cell (the values of all coordinate
    columns), the label ([data_label] or [signal_label]) and the value, which
    can be missing. *)
Record Row : Type := {
  coords : list Z;
  label : string;
  value : option Q
}.

(** A table: its rows and the dtype of its [value] column. *)
Record DataFrame : Type := {
  value_dtype : dtype;
  rows : list Row
}.

(** The reserved label, spelled as the keys of the expected confusion
    matrices in [test_class_based_conf_mat] and the assignment in
    [test_case_data_error] spell it. *)
Definition NON_CASE : string := "non_case".

(** The invariants of specification section 4.1, "each a distinct error
    condition", in the order they are listed. *)
Inductive invariant : Type :=
| CaseValueMissing
| CaseValueNotCount
| CaseLabelReserved
| SignalCoordsNotSubset
| SignalValueNotUnitFloat
| SignalCountUnequal.

Definition is_case_invariant (e : invariant) : bool :=
  match e with
  | CaseValueMissing | CaseValueNotCount | CaseLabelReserved => true
  | _ => false
  end.


Definition checked (A : Type) : Type := (invariant + A)%type.

Definition require (ok : bool) (e : invariant) : checked unit :=
  if ok then inr tt else inl e.

Definition and_then {A B : Type} (c : checked A) (k : A -> checked B)
  : checked B :=
  match c with
  | inl e => inl e
  | inr a => k a
  end.

Fixpoint coords_eqb (a b : list Z) : bool :=
  match a, b with
  | [], [] => true
  | x :: a', y :: b' => (x =? y)%Z && coords_eqb a' b'
  | _, _ => false
  end.

Definition cells (df : DataFrame) : list (list Z) :=
  map coords (rows df).

Definition is_missing (r : Row) : bool :=
  match value r with
  | None => true
  | Some _ => false
  end.

(** A rational is a whole number when its denominator divides its
    numerator. *)
Definition is_whole (q : Q) : bool :=
  (Qnum q mod Z.pos (Qden q) =? 0)%Z.

Definition is_count (r : Row) : bool :=
  match value r with
  | Some q => Qle_bool 0 q && is_whole q
  | None => false
  end.

Definition is_unit (r : Row) : bool :=
  match value r with
  | Some q => Qle_bool 0 q && Qle_bool q 1
  | None => false
  end.

Definition dtype_eqb (a b : dtype) : bool :=
  match a, b with
  | dt_int64, dt_int64 | dt_float64, dt_float64 | dt_object, dt_object => true
  | _, _ => false
  end.

(** Modelled from the spec: the Validator's three checks on the case table
    (section 4.1): a missing [value]; a [value] that is not a non-negative
    integer (negative, fractional, or of the wrong numeric kind); the
    reserved label in [data_label]. *)
Definition _check_cases_correctness (cases : DataFrame) : checked unit :=
  and_then (require (negb (existsb is_missing (rows cases))) CaseValueMissing)
  (fun _ =>
  and_then (require (dtype_eqb (value_dtype cases) dt_int64
                     && forallb is_count (rows cases)) CaseValueNotCount)
  (fun _ =>
  require (negb (existsb (fun r => String.eqb (label r) NON_CASE) (rows cases)))
          CaseLabelReserved)).

Definition coords_subset (signals cases : DataFrame) : bool :=
  forallb (fun c => existsb (coords_eqb c) (cells cases)) (cells signals).

Definition count_cell (c : list Z) (df : DataFrame) : nat :=
  List.length (filter (coords_eqb c) (cells df)).

Definition same_amount_of_signals (signals : DataFrame) : bool :=
  match cells signals with
  | [] => true
  | c0 :: _ =>
      forallb (fun c => Nat.eqb (count_cell c signals) (count_cell c0 signals))
              (cells signals)
  end.

(** Modelled from the spec: the Validator's three checks on the signal table
    (section 4.1): the cells are cells of the case table; the [value] column
    has a float dtype and every value lies in [0,1]; every cell carries the
    same number of rows.  They are taken in the order of the list in the
    specification, which is one order among those the tests allow. *)
Definition _check_signals_correctness (cases signals : DataFrame)
  : checked unit :=
  and_then (require (coords_subset signals cases) SignalCoordsNotSubset)
  (fun _ =>
  and_then (require (dtype_eqb (value_dtype signals) dt_float64
                     && forallb is_unit (rows signals)) SignalValueNotUnitFloat)
  (fun _ =>
  require (same_amount_of_signals signals) SignalCountUnequal)).

(** The Imputer of specification section 4.2, which no claim below depends
    on: the two fill passes are left abstract. *)
Class Imputer : Type := {
  _impute_non_case : DataFrame -> DataFrame;
  _impute_signals : DataFrame -> DataFrame -> DataFrame
}.

(** An engine instance owns its derived tables. *)
Record Score : Type := {
  cases : DataFrame;
  signals : DataFrame
}.

(** Modelled from the spec: the constructor of the scoring engine.  The
    Validator runs first and "fails fast (no partial computation)"; only then
    are the derived tables built (sections 2, 4.1 and 7).  The checks run in
    the order in which section 4.1 lists them; neither the specification nor
    a test fixes an order, and [Score_init_in] below runs them in any. *)
Definition Score_init {imp : Imputer} (cases_arg signals_arg : DataFrame)
  : checked Score :=
  and_then (_check_cases_correctness cases_arg) (fun _ =>
  and_then (_check_signals_correctness cases_arg signals_arg) (fun _ =>
  let imputed_cases := _impute_non_case cases_arg in
  inr {| cases := imputed_cases;
         signals := _impute_signals signals_arg imputed_cases |})).

(** Whether one invariant holds of the two tables: the six checks above,
    one by one. *)
Definition holds (e : invariant) (cases_arg signals_arg : DataFrame) : bool :=
  match e with
  | CaseValueMissing => negb (existsb is_missing (rows cases_arg))
  | CaseValueNotCount =>
      dtype_eqb (value_dtype cases_arg) dt_int64
      && forallb is_count (rows cases_arg)
  | CaseLabelReserved =>
      negb (existsb (fun r => String.eqb (label r) NON_CASE) (rows cases_arg))
  | SignalCoordsNotSubset => coords_subset signals_arg cases_arg
  | SignalValueNotUnitFloat =>
      dtype_eqb (value_dtype signals_arg) dt_float64
      && forallb is_unit (rows signals_arg)
  | SignalCountUnequal => same_amount_of_signals signals_arg
  end.

(** The checks of [order], one after the other, failing at the first
    invariant that does not hold. *)
Fixpoint run_checks (order : list invariant)
    (cases_arg signals_arg : DataFrame) : checked unit :=
  match order with
  | [] => inr tt
  | e :: rest =>
      and_then (require (holds e cases_arg signals_arg) e)
               (fun _ => run_checks rest cases_arg signals_arg)
  end.

(** Modelled from the spec: the constructor with the Validator running its
    checks in a given order. *)
Definition Score_init_in {imp : Imputer} (order : list invariant)
    (cases_arg signals_arg : DataFrame) : checked Score :=
  and_then (run_checks order cases_arg signals_arg) (fun _ =>
  let imputed_cases := _impute_non_case cases_arg in
  inr {| cases := imputed_cases;
         signals := _impute_signals signals_arg imputed_cases |}).


(** ** Timeliness *)

(** One time step of one (data_label, spatial group) series, as the frames
    of [test_calc_delay] have it. *)
Record Step : Type := {
  value_cases : Z;
  value_signals : Z
}.

Definition nonzero (z : Z) : bool := negb (z =? 0)%Z.

(** Index of the first element satisfying [p], scanning from position
    [from]. *)
Fixpoint first_index_from (p : Z -> bool) (from : nat) (xs : list Z)
  : option nat :=
  match xs with
  | [] => None
  | x :: xs' =>
      match from with
      | O =>
          if p x then Some O
          else option_map S (first_index_from p O xs')
      | S from' => option_map S (first_index_from p from' xs')
      end
  end.

(** Modelled from the spec: [EpiMetrics._calc_delay] (section 4.7, steps 2
    to 4).  Onset is the first step with a nonzero case count, detection the
    first step at or after onset with a nonzero binarized signal; when either
    is absent the delay is the length of the series. *)
Definition _calc_delay (df : list Step) : nat :=
  let n := List.length df in
  match first_index_from nonzero 0 (map value_cases df) with
  | None => n
  | Some onset =>
      match first_index_from nonzero onset (map value_signals df) with
      | None => n
      | Some detection => detection - onset
      end
  end.

(** Modelled from the spec: the timeliness of one series (section 4.7,
    step 5, and the docstring of [api.timeliness]): [1 - s/D] when [s <= D],
    otherwise [0].  The quotient is the exact rational. *)
Definition p_time (s D : Z) : Q :=
  if (s <=? D)%Z then 1 - inject_Z s / inject_Z D else 0.

End scorer.

(* ================================================================= *)
(** * Specification vocabulary *)

(** [i] is the first position at or after [lo] holding a nonzero entry. *)
Definition first_nonzero_at (xs : list Z) (lo i : nat) : Prop :=
  (lo <= i < List.length xs)%nat
  /\ nth i xs 0%Z <> 0%Z
  /\ forall j, (lo <= j < i)%nat -> nth j xs 0%Z = 0%Z.

(** No position at or after [lo] holds a nonzero entry. *)
Definition no_nonzero_from (xs : list Z) (lo : nat) : Prop :=
  forall j, (lo <= j < List.length xs)%nat -> nth j xs 0%Z = 0%Z.

(** The frames of [test_calc_delay]: two columns of equal length. *)
Definition frame (cs ss : list Z) : list scorer.Step :=
  map (fun p => {| scorer.value_cases := fst p; scorer.value_signals := snd p |})
      (combine cs ss).


(** The text of the [ValueError] of a requirement pair. *)
Definition mismatch_message (required : api._ThreshRequired) : string :=
  "This metric " ++ api._thresh_text (api.p_thresh required) ++ " p_thresh and "
  ++ api._thresh_text (api.p_hat_thresh required) ++ " p_hat_thresh.".

(** Which thresholds a call supplies, and which a metric requires. *)
Definition supplied (threshold_true threshold_pred : option number)
  : bool * bool :=
  (is_not_None threshold_true, is_not_None threshold_pred).

Definition requirement (required : api._ThreshRequired) : bool * bool :=
  (api.p_thresh required, api.p_hat_thresh required).

(** What [score] runs once the threshold check has passed. *)
Definition score_body {sk : api.Sklearn} {DataFrame Store Out : Type}
    {engine : api.ScoreCalculator DataFrame Store Out}
    (cases signals : DataFrame) (metric : string)
    (a b : option number) (w : option api.weighting_arg)
    (t : option (list (string * Q))) (x : option string) : M Store Out :=
  bind (api.new cases signals)
       (fun c => bind (lift (api.getitem api.metrics metric))
                      (fun f => api.calc_score c f a b w t x)).

(* ================================================================= *)
(** * Small tables and a small engine *)

Module tables.
Import scorer.

Definition row (c : list Z) (l : string) (v : Q) : Row :=
  {| coords := c; label := l; value := Some v |}.

(** A small valid case table on the cells (0,0) and (0,1). *)
Definition small_cases : DataFrame :=
  {| value_dtype := dt_int64;
     rows := [ row [0; 0]%Z "endemic" 1; row [0; 1]%Z "one" 2 ] |}.

(** The same table after [cases.loc[1, "value"] = pd.NA]. *)
Definition cases_with_missing : DataFrame :=
  {| value_dtype := dt_object;
     rows := [ row [0; 0]%Z "endemic" 1;
               {| coords := [0; 1]%Z; label := "one"; value := None |} ] |}.

(** A signal table on the same cells whose [value] column was overwritten
    with the int [1], as in [test_signals_float_error]. *)
Definition signals_not_float : DataFrame :=
  {| value_dtype := dt_int64;
     rows := [ row [0; 0]%Z "endemic" 1; row [0; 1]%Z "endemic" 1 ] |}.

(** A float signal table with one cell moved outside the case table
    ([x1 = 6], as in [test_signal_coord_error]). *)
Definition signals_moved : DataFrame :=
  {| value_dtype := dt_float64;
     rows := [ row [6; 0]%Z "endemic" (1 # 2); row [0; 1]%Z "endemic" (1 # 2) ] |}.


(** The listed order with the checks on the signal values and on the signal
    cells exchanged. *)
Definition values_first : list invariant :=
  [ CaseValueMissing; CaseValueNotCount; CaseLabelReserved;
    SignalValueNotUnitFloat; SignalCoordsNotSubset; SignalCountUnequal ].

End tables.

(** A small engine and library to run the interface on: the store is the
    content of the tables (a number standing for it) and a count of the
    calls made so far; the engine echoes the content and the thresholds it
    was given and counts its calls. *)
Module fixtures.
Import api.

Definition echo_sklearn : Sklearn :=
  {| f1_score := fun _ _ _ => inr (Scalar (Finite 1));
     brier_score_loss := fun _ _ _ => inr (Scalar (Finite 0));
     roc_curve := fun _ _ _ => inr ([0; 1], [0; 1], [1; 0]);
     auc := fun _ _ => inr (Scalar (Finite (1 # 2)));
     confusion_matrix := fun _ _ _ => inr [[1; 0]; [0; 1]];
     matthews_corrcoef := fun _ _ _ => inr (Scalar (Finite 1));
     r2_score := fun _ _ _ => inr (Scalar (Finite 1));
     mean_squared_error := fun _ _ _ => inr (Scalar (Finite 0));
     mean_absolute_error := fun _ _ _ => inr (Scalar (Finite 0)) |}.

Definition echo_out : Type :=
  (Q * result score_value * option number * option number)%type.

Definition echo_engine : ScoreCalculator unit (Q * nat) echo_out :=
  {| Calculator := Q;
     new := fun _ _ s => (inr (fst s), (fst s, S (snd s)));
     calc_score := fun c f a b _ _ _ s =>
       (inr (c, f [1] [1] None, a, b), (fst s, S (snd s))) |}.
End fixtures.

(* ================================================================= *)
(** * Further vocabulary for the interface *)

(** The text of the [KeyError] for a metric name that is not a key of
    [required_treshs]: the names joined in the order of the table. *)
Definition unknown_metric_message : string :=
  "This metric is not recognized. Please use one of the following: "
  ++ "f1, brier, auc, sensitivity, recall, tpr, specificity, tnr, "
  ++ "fpr, fnr, precision, ppv, npv, matthews, r2, mse, mae".

(** The six adapters that unpack the flattened confusion matrix. *)
Definition confusion_adapters {sk : api.Sklearn} : list api.Scorer :=
  [ api._sensitivity; api._specificity; api._fpr; api._fnr;
    api._precision; api._npv ].

(** What an adapter that divides [a] by [a + b] returns: nan when the
    denominator is zero, and otherwise the quotient, which lies between 0
    and 1. *)
Definition share_outcome (r : result api.score_value) (a b : Q) : Prop :=
  (a + b == 0 -> r = inr (api.Scalar NaN))
  /\ (~ a + b == 0 ->
      exists v, r = inr (api.Scalar (Finite v))
                /\ v == a / (a + b) /\ 0 <= v <= 1).

(** A library whose confusion matrix is a given table, to run the adapters
    on. *)
Definition table_sklearn (m : list (list Q)) : api.Sklearn :=
  {| api.f1_score := fun _ _ _ => inr (api.Scalar (Finite 1));
     api.brier_score_loss := fun _ _ _ => inr (api.Scalar (Finite 0));
     api.roc_curve := fun _ _ _ => inr ([0; 1], [0; 1], [1; 0]);
     api.auc := fun _ _ => inr (api.Scalar (Finite (1 # 2)));
     api.confusion_matrix := fun _ _ _ => inr m;
     api.matthews_corrcoef := fun _ _ _ => inr (api.Scalar (Finite 1));
     api.r2_score := fun _ _ _ => inr (api.Scalar (Finite 1));
     api.mean_squared_error := fun _ _ _ => inr (api.Scalar (Finite 0));
     api.mean_absolute_error := fun _ _ _ => inr (api.Scalar (Finite 0)) |}.

(* ================================================================= *)
(** * The onset-to-detection delay *)

Section Delay.
Import scorer.
Local Open Scope nat_scope.

Lemma nonzero_true (z : Z) : nonzero z = true <-> z <> 0%Z.
Proof.
  unfold nonzero. rewrite negb_true_iff, Z.eqb_neq. tauto.
Qed.

Lemma nonzero_false (z : Z) : nonzero z = false <-> z = 0%Z.
Proof.
  unfold nonzero. rewrite negb_false_iff, Z.eqb_eq. tauto.
Qed.

Lemma first_index_from_Some (xs : list Z) :
  forall lo i,
    first_index_from nonzero lo xs = Some i -> first_nonzero_at xs lo i.
Proof.
  induction xs as [|x xs IH]; intros lo i H; simpl in H; [discriminate|].
  destruct lo as [|lo].
  - destruct (nonzero x) eqn:Hx.
    + injection H as <-. repeat split; simpl; try lia.
      now apply nonzero_true.
    + destruct (first_index_from nonzero 0 xs) as [k|] eqn:Hk;
        simpl in H; [|discriminate].
      injection H as <-.
      destruct (IH 0 k Hk) as (Hr & Hn & Hz).
      repeat split; simpl; try lia.
      intros [|j] Hj; [now apply nonzero_false|].
      apply Hz. lia.
  - destruct (first_index_from nonzero lo xs) as [k|] eqn:Hk;
      simpl in H; [|discriminate].
    injection H as <-.
    destruct (IH lo k Hk) as (Hr & Hn & Hz).
    repeat split; simpl; try lia.
    intros [|j] Hj; [lia|]. apply Hz. lia.
Qed.

Lemma first_index_from_None (xs : list Z) :
  forall lo, first_index_from nonzero lo xs = None -> no_nonzero_from xs lo.
Proof.
  induction xs as [|x xs IH]; intros lo H j Hj; simpl in *; [lia|].
  destruct lo as [|lo].
  - destruct (nonzero x) eqn:Hx; [discriminate|].
    destruct (first_index_from nonzero 0 xs) eqn:Hk; [discriminate|].
    destruct j as [|j]; [now apply nonzero_false|].
    apply (IH 0 Hk). lia.
  - destruct (first_index_from nonzero lo xs) eqn:Hk; [discriminate|].
    destruct j as [|j]; [lia|].
    apply (IH lo Hk). lia.
Qed.

Lemma first_nonzero_at_unique (xs : list Z) (lo i j : nat) :
  first_nonzero_at xs lo i -> first_nonzero_at xs lo j -> i = j.
Proof.
  intros (Hi & Hin & Hiz) (Hj & Hjn & Hjz).
  destruct (Nat.lt_trichotomy i j) as [Hlt|[Heq|Hgt]]; [|exact Heq|].
  - exfalso. apply Hin, Hjz. lia.
  - exfalso. apply Hjn, Hiz. lia.
Qed.

Lemma first_nonzero_at_excludes (xs : list Z) (lo i : nat) :
  first_nonzero_at xs lo i -> no_nonzero_from xs lo -> False.
Proof.
  intros (Hi & Hin & _) Hz. apply Hin, Hz. exact Hi.
Qed.

Lemma first_index_from_complete (xs : list Z) (lo i : nat) :
  first_nonzero_at xs lo i -> first_index_from nonzero lo xs = Some i.
Proof.
  intros H.
  destruct (first_index_from nonzero lo xs) as [k|] eqn:Hk.
  - f_equal. apply first_index_from_Some in Hk.
    eapply first_nonzero_at_unique; eassumption.
  - exfalso. apply first_index_from_None in Hk.
    eapply first_nonzero_at_excludes; eassumption.
Qed.

Lemma first_index_from_absent (xs : list Z) (lo : nat) :
  no_nonzero_from xs lo -> first_index_from nonzero lo xs = None.
Proof.
  intros H.
  destruct (first_index_from nonzero lo xs) as [k|] eqn:Hk; [|reflexivity].
  exfalso. apply first_index_from_Some in Hk.
  eapply first_nonzero_at_excludes; eassumption.
Qed.

Example test_calc_delay :
  _calc_delay (frame [0; 0; 0] [0; 0; 1])%Z = 3
  /\ _calc_delay (frame [0; 0; 1] [0; 0; 0])%Z = 3
  /\ _calc_delay (frame [0; 0; 0] [0; 0; 0])%Z = 3
  /\ _calc_delay (frame [0; 1; 0] [1; 0; 0])%Z = 3
  /\ _calc_delay (frame [1; 0; 0] [0; 0; 1])%Z = 2
  /\ _calc_delay (frame [1; 0; 1] [0; 0; 1])%Z = 2
  /\ _calc_delay (frame [0; 1; 1] [0; 0; 1])%Z = 1
  /\ _calc_delay (frame [1; 1; 1] [0; 1; 1])%Z = 1
  /\ _calc_delay (frame [0; 1; 0] [0; 1; 1])%Z = 0
  /\ _calc_delay (frame [1; 1; 0] [1; 1; 1])%Z = 0.
Proof. repeat split; reflexivity. Qed.

(** C1.  For every series of case counts and binarized signals,
    [_calc_delay] is the length of the series when the case counts are all
    zero, the length of the series when no signal is nonzero at or after
    the onset (the first nonzero case count), and otherwise the first
    position at or after the onset with a nonzero signal, minus the onset.
    One of the three situations always holds.  For cases [0,1,0] and
    signals [1,0,0] the delay is 3: a signal before the onset is not a
    detection. *)
Theorem calc_delay_spec (df : list Step) :
  let cs := map value_cases df in
  let ss := map value_signals df in
  let n := List.length df in
  (no_nonzero_from cs 0 -> _calc_delay df = n)
  /\ (forall onset,
         first_nonzero_at cs 0 onset -> no_nonzero_from ss onset ->
         _calc_delay df = n)
  /\ (forall onset detection,
         first_nonzero_at cs 0 onset ->
         first_nonzero_at ss onset detection ->
         _calc_delay df = detection - onset)
  /\ (no_nonzero_from cs 0
      \/ exists onset,
           first_nonzero_at cs 0 onset
           /\ (no_nonzero_from ss onset
               \/ exists detection, first_nonzero_at ss onset detection))
  /\ _calc_delay (frame [0; 1; 0] [1; 0; 0])%Z = 3.
Proof.
  intros cs ss n. unfold _calc_delay. fold cs ss n.
  split; [|split; [|split; [|split]]].
  - intros H. now rewrite (first_index_from_absent _ _ H).
  - intros onset Ho Hs.
    rewrite (first_index_from_complete _ _ _ Ho).
    now rewrite (first_index_from_absent _ _ Hs).
  - intros onset detection Ho Hd.
    rewrite (first_index_from_complete _ _ _ Ho).
    now rewrite (first_index_from_complete _ _ _ Hd).
  - destruct (first_index_from nonzero 0 cs) as [onset|] eqn:Ho.
    + right. exists onset. split; [now apply first_index_from_Some|].
      destruct (first_index_from nonzero onset ss) as [d|] eqn:Hd.
      * right. exists d. now apply first_index_from_Some.
      * left. now apply first_index_from_None.
    + left. now apply first_index_from_None.
  - reflexivity.
Qed.

Lemma calc_delay_spec_witness :
  first_nonzero_at [0; 1; 1]%Z 0 1
  /\ first_nonzero_at [0; 0; 1]%Z 1 2
  /\ _calc_delay (frame [0; 1; 1] [0; 0; 1])%Z = 2 - 1.
Proof.
  assert (Ho : first_nonzero_at [0; 1; 1]%Z 0 1).
  { repeat split; simpl; try lia.
    intros j Hj. assert (j = 0) as -> by lia. reflexivity. }
  assert (Hd : first_nonzero_at [0; 0; 1]%Z 1 2).
  { repeat split; simpl; try lia.
    intros j Hj. assert (j = 1) as -> by lia. reflexivity. }
  split; [exact Ho|]. split; [exact Hd|].
  exact (proj1 (proj2 (proj2 (calc_delay_spec (frame [0; 1; 1] [0; 0; 1])%Z)))
           1 2 Ho Hd).
Defined.

End Delay.

(* ================================================================= *)
(** * Timeliness of one series *)

Section Timeliness.
Import scorer.
Local Open Scope Q_scope.

Lemma delay_ratio_nonneg (s D : Z) :
  (0 <= s)%Z -> (0 < D)%Z -> 0 <= inject_Z s / inject_Z D.
Proof.
  intros Hs HD. destruct D as [|d|d]; try lia.
  unfold Qdiv, Qmult, Qinv, inject_Z, Qle. simpl. lia.
Qed.

Lemma delay_ratio_mono (s s' D : Z) :
  (0 < D)%Z -> (s <= s')%Z ->
  inject_Z s / inject_Z D <= inject_Z s' / inject_Z D.
Proof.
  intros HD Hs. destruct D as [|d|d]; try lia.
  unfold Qdiv, Qmult, Qinv, inject_Z, Qle. simpl. nia.
Qed.

Lemma delay_ratio_le_1 (s D : Z) :
  (0 < D)%Z -> (s <= D)%Z -> inject_Z s / inject_Z D <= 1.
Proof.
  intros HD Hs. destruct D as [|d|d]; try lia.
  unfold Qdiv, Qmult, Qinv, inject_Z, Qle. simpl. lia.
Qed.

Lemma delay_ratio_zero (s D : Z) :
  (0 < D)%Z -> (inject_Z s / inject_Z D == 0 <-> s = 0%Z).
Proof.
  intros HD. destruct D as [|d|d]; try lia.
  unfold Qdiv, Qmult, Qinv, inject_Z, Qeq. simpl. lia.
Qed.

Lemma p_time_within (s D : Z) :
  (s <= D)%Z -> p_time s D = 1 - inject_Z s / inject_Z D.
Proof.
  intros H. unfold p_time. apply Z.leb_le in H. now rewrite H.
Qed.

Lemma p_time_beyond (s D : Z) : (D < s)%Z -> p_time s D = 0.
Proof.
  intros H. unfold p_time. apply Z.leb_gt in H. now rewrite H.
Qed.

Lemma p_time_range (s D : Z) :
  (0 <= s)%Z -> (0 < D)%Z -> 0 <= p_time s D <= 1.
Proof.
  intros Hs HD. destruct (Z_le_gt_dec s D) as [Hle|Hgt].
  - rewrite (p_time_within _ _ Hle).
    pose proof (delay_ratio_nonneg s D Hs HD).
    pose proof (delay_ratio_le_1 s D HD Hle). lra.
  - rewrite p_time_beyond by lia. lra.
Qed.

(** C2.  For a delay [s >= 0] and a maximum acceptable delay [D > 0], the
    timeliness of a series is [1 - s/D] when [s <= D] and [0] otherwise; it
    does not increase when the delay grows, it is 1 exactly when [s = 0],
    it is 0 whenever [s > D], and it lies in [0,1]. *)
Theorem timeliness_spec (s D : Z) (Hs : (0 <= s)%Z) (HD : (0 < D)%Z) :
  ((s <= D)%Z -> p_time s D = 1 - inject_Z s / inject_Z D)
  /\ ((D < s)%Z -> p_time s D = 0)
  /\ (forall s', (s <= s')%Z -> p_time s' D <= p_time s D)
  /\ (p_time s D == 1 <-> s = 0%Z)
  /\ 0 <= p_time s D <= 1.
Proof.
  split; [apply p_time_within|].
  split; [apply p_time_beyond|].
  split; [|split; [|now apply p_time_range]].
  - intros s' Hss'.
    destruct (Z_le_gt_dec s' D) as [Hle|Hgt].
    + rewrite (p_time_within s' D Hle), (p_time_within s D) by lia.
      pose proof (delay_ratio_mono s s' D HD Hss'). lra.
    + rewrite (p_time_beyond s' D) by lia.
      apply p_time_range; assumption.
  - destruct (Z_le_gt_dec s D) as [Hle|Hgt].
    + rewrite (p_time_within _ _ Hle).
      pose proof (delay_ratio_zero s D HD) as Hz.
      split; intros H.
      * apply Hz. lra.
      * apply Hz in H. lra.
    + rewrite p_time_beyond by lia.
      split; intros H; [discriminate H | lia].
Qed.

Lemma timeliness_spec_witness :
  (0 <= 2)%Z /\ (0 < 4)%Z
  /\ p_time 2 4 = 1 - inject_Z 2 / inject_Z 4
  /\ 0 <= p_time 2 4 <= 1.
Proof.
  assert (Hs : (0 <= 2)%Z) by (vm_compute; discriminate).
  assert (HD : (0 < 4)%Z) by reflexivity.
  split; [exact Hs|]. split; [exact HD|].
  destruct (timeliness_spec 2 4 Hs HD) as (Hin & _ & _ & _ & Hrange).
  split; [|exact Hrange].
  apply Hin. vm_compute; discriminate.
Defined.

(** The delays behind the values expected by [test_timeliness] for
    [D = 4]: no delay scores 1, a delay of two steps scores one half. *)
Example p_time_test_values :
  p_time 0 4 == 1 /\ p_time 2 4 == 1 # 2 /\ p_time 5 4 == 0.
Proof. repeat split; reflexivity. Qed.

End Timeliness.

(* ================================================================= *)
(** * The Validator *)


Section Validator.
Import scorer.
Local Open Scope Q_scope.



Lemma is_whole_spec (q : Q) :
  is_whole q = true -> exists z, q == inject_Z z.
Proof.
  unfold is_whole. intros H. apply Z.eqb_eq in H.
  exists (Qnum q / Z.pos (Qden q))%Z.
  unfold Qeq, inject_Z. simpl.
  pose proof (Z.div_mod (Qnum q) (Z.pos (Qden q))). lia.
Qed.

Lemma is_count_spec (r : Row) :
  is_count r = true ->
  exists q, value r = Some q /\ 0 <= q /\ exists z, q == inject_Z z.
Proof.
  unfold is_count. destruct (value r) as [q|]; [|discriminate].
  intros H. apply andb_true_iff in H. destruct H as [Hle Hw].
  exists q. split; [reflexivity|]. split.
  - now apply Qle_bool_iff.
  - now apply is_whole_spec.
Qed.


(** The result of the checks on the case table is the result of the
    constructor whenever they fail. *)
Lemma Score_init_case_error {imp : Imputer} (cases signals : DataFrame)
    (e : invariant) :
  _check_cases_correctness cases = inl e ->
  Score_init cases signals = inl e.
Proof.
  intros H. unfold Score_init. now rewrite H.
Qed.

Lemma check_cases_error_kind (cases : DataFrame) (e : invariant) :
  _check_cases_correctness cases = inl e -> is_case_invariant e = true.
Proof.
  unfold _check_cases_correctness, and_then, require.
  destruct (negb (existsb is_missing (rows cases)));
    [|intros [= <-]; reflexivity].
  destruct (dtype_eqb (value_dtype cases) dt_int64
            && forallb is_count (rows cases))%bool;
    [|intros [= <-]; reflexivity].
  destruct (negb (existsb (fun r => String.eqb (label r) NON_CASE)
                          (rows cases)));
    [discriminate | intros [= <-]; reflexivity].
Qed.

Lemma check_cases_rejects (cases : DataFrame) (r : Row) :
  In r (rows cases) ->
  value r = None
  \/ (exists q, value r = Some q
                /\ (q < 0 \/ forall z, ~ q == inject_Z z))
  \/ label r = NON_CASE ->
  exists e, _check_cases_correctness cases = inl e.
Proof.
  intros Hin Hbad.
  unfold _check_cases_correctness, and_then, require.
  destruct (existsb is_missing (rows cases)) eqn:Hmiss; simpl;
    [eexists; reflexivity|].
  destruct (dtype_eqb (value_dtype cases) dt_int64
            && forallb is_count (rows cases))%bool eqn:Hcount;
    [|eexists; reflexivity].
  destruct (existsb (fun r => String.eqb (label r) NON_CASE) (rows cases))
    eqn:Hlab; simpl; [eexists; reflexivity|].
  exfalso.
  apply andb_true_iff in Hcount. destruct Hcount as [_ Hcount].
  rewrite forallb_forall in Hcount. specialize (Hcount r Hin).
  apply is_count_spec in Hcount.
  destruct Hcount as (q & Hq & Hnonneg & z & Hz).
  destruct Hbad as [Hnone | [(q' & Hq' & Hbad) | Hres]].
  - congruence.
  - assert (q' = q) as -> by congruence.
    destruct Hbad as [Hneg | Hfrac].
    + apply (Qlt_not_le _ _ Hneg Hnonneg).
    + apply (Hfrac z Hz).
  - assert (Hex : existsb (fun r => String.eqb (label r) NON_CASE)
                          (rows cases) = true).
    { apply existsb_exists. exists r. split; [exact Hin|].
      now apply String.eqb_eq. }
    congruence.
Qed.

(** C3.  A case table with a row whose [value] is missing, negative or
    fractional, or whose [data_label] is the reserved label, is rejected by
    the constructor: the result is an error of the checks on the case
    table, the same whatever the signal table and whatever the imputation
    would build, and no engine instance is returned. *)
Theorem case_table_rejected (cases : DataFrame) (r : Row)
    (Hin : In r (rows cases))
    (Hbad : value r = None
            \/ (exists q, value r = Some q
                          /\ (q < 0 \/ forall z, ~ q == inject_Z z))
            \/ label r = NON_CASE) :
  exists e,
    is_case_invariant e = true
    /\ forall (imp : Imputer) (signals : DataFrame),
         Score_init cases signals = inl e.
Proof.
  destruct (check_cases_rejects cases r Hin Hbad) as (e & He).
  exists e. split.
  - now apply (check_cases_error_kind cases).
  - intros imp signals. now apply Score_init_case_error.
Qed.

Lemma case_table_rejected_witness :
  exists e,
    is_case_invariant e = true
    /\ forall (imp : Imputer) (signals : DataFrame),
         Score_init tables.cases_with_missing signals = inl e.
Proof.
  apply (case_table_rejected tables.cases_with_missing
           {| coords := [0; 1]%Z; label := "one"; value := None |}).
  - simpl. right. left. reflexivity.
  - left. reflexivity.
Defined.

(** The four rejection scenarios of [test_case_data_error], each on the
    small table with row 1 or row 0 overwritten. *)
Example test_case_data_error (imp : Imputer) (signals : DataFrame) :
  Score_init tables.cases_with_missing signals = inl CaseValueMissing
  /\ Score_init
       {| value_dtype := dt_object;
          rows := [ tables.row [0; 0]%Z "endemic" 1;
                    tables.row [0; 1]%Z "one" (-1) ] |} signals
     = inl CaseValueNotCount
  /\ Score_init
       {| value_dtype := dt_object;
          rows := [ tables.row [0; 0]%Z "endemic" 1;
                    tables.row [0; 1]%Z "one" (27 # 10) ] |} signals
     = inl CaseValueNotCount
  /\ Score_init
       {| value_dtype := dt_int64;
          rows := [ tables.row [0; 0]%Z NON_CASE 1;
                    tables.row [0; 1]%Z "one" 2 ] |} signals
     = inl CaseLabelReserved.
Proof. repeat split; reflexivity. Qed.













(** The order is not fixed by the tests: with the two checks on the signal
    values and the signal cells exchanged, these scenarios of the tests have
    the same error. *)
Example tests_do_not_fix_order (imp : Imputer) :
  Score_init_in tables.values_first tables.small_cases tables.signals_not_float
  = Score_init tables.small_cases tables.signals_not_float
  /\ Score_init_in tables.values_first tables.small_cases tables.signals_moved
     = Score_init tables.small_cases tables.signals_moved
  /\ Score_init_in tables.values_first tables.cases_with_missing
                   tables.signals_moved
     = Score_init tables.cases_with_missing tables.signals_moved.
Proof. repeat split; reflexivity. Qed.

(** The three scenarios of [test_signals_float_error] and the one of
    [test_signals_equal_number_error], on the small tables. *)
Example test_signals_errors (imp : Imputer) :
  Score_init tables.small_cases
    {| value_dtype := dt_float64;
       rows := [ tables.row [0; 0]%Z "endemic" (-12 # 10);
                 tables.row [0; 1]%Z "endemic" (1 # 2) ] |}
  = inl SignalValueNotUnitFloat
  /\ Score_init tables.small_cases
       {| value_dtype := dt_float64;
          rows := [ tables.row [0; 0]%Z "endemic" 2;
                    tables.row [0; 1]%Z "endemic" (1 # 2) ] |}
     = inl SignalValueNotUnitFloat
  /\ Score_init tables.small_cases tables.signals_not_float
     = inl SignalValueNotUnitFloat
  /\ Score_init tables.small_cases
       {| value_dtype := dt_float64;
          rows := [ tables.row [0; 0]%Z "endemic" (1 # 2);
                    tables.row [0; 0]%Z "one" (1 # 2);
                    tables.row [0; 1]%Z "endemic" (1 # 2) ] |}
     = inl SignalCountUnequal.
Proof. repeat split; reflexivity. Qed.

End Validator.

(* ================================================================= *)
(** * The interface: thresholds, dispatch, defaults *)

Section Interface.
Import api.
Context {sk : Sklearn}.
Context {DataFrame Store Out : Type}.
Context {engine : ScoreCalculator DataFrame Store Out}.

Lemma check_threshs_correct_spec (required : _ThreshRequired)
    (a b : option number) :
  (supplied a b <> requirement required
   -> check_threshs_correct required a b
      = inl (ValueError (mismatch_message required)))
  /\ (supplied a b = requirement required
      -> check_threshs_correct required a b = inr tt).
Proof.
  destruct required as [[|] [|]], a as [a|], b as [b|];
    unfold supplied, requirement; simpl;
    split; intros H; try reflexivity; congruence.
Qed.

Lemma recognized_has_requirement (metric : string) :
  In metric (keys required_treshs) ->
  exists required, lookup metric required_treshs = Some required.
Proof.
  simpl. intros H.
  repeat (destruct H as [<- | H]; [eexists; reflexivity|]).
  destruct H.
Qed.

(** Both tables have the same keys, so the dispatch after a passed check
    cannot raise. *)
Lemma metrics_keys : keys metrics = keys required_treshs.
Proof. reflexivity. Qed.

Lemma recognized_has_scorer (metric : string) :
  In metric (keys required_treshs) ->
  exists f, getitem metrics metric = inr f.
Proof.
  simpl. intros H. unfold getitem.
  repeat (destruct H as [<- | H]; [eexists; reflexivity|]).
  destruct H.
Qed.

Lemma recognized_not_in_message (metric : string)
    (required : _ThreshRequired) :
  In metric (keys required_treshs) ->
  is_infix metric (mismatch_message required) = false.
Proof.
  simpl. intros H. destruct required as [[|] [|]];
    repeat (destruct H as [<- | H]; [vm_compute; reflexivity|]);
    destruct H.
Qed.

(** An error of the threshold check is the outcome of [score]; neither the
    engine nor the store is touched. *)
Lemma score_check_error (cases signals : DataFrame) (metric : string)
    (a b : option number) (w : option weighting_arg)
    (t : option (list (string * Q))) (x : option string) (e : exn)
    (s : Store) :
  _check_threshs metric a b = inl e ->
  score cases signals metric a b w t x s = (inl e, s).
Proof.
  intros H. unfold score, bind, lift. now rewrite H.
Qed.

(** A passed check hands over to the engine. *)
Lemma score_check_passed (cases signals : DataFrame) (metric : string)
    (a b : option number) (w : option weighting_arg)
    (t : option (list (string * Q))) (x : option string) (s : Store) :
  _check_threshs metric a b = inr tt ->
  score cases signals metric a b w t x s
  = score_body cases signals metric a b w t x s.
Proof.
  intros H. unfold score, score_body, bind at 1, lift at 1. now rewrite H.
Qed.

End Interface.


Section InterfaceClaims.
Import api.
Context {sk : Sklearn}.
Context {DataFrame Store Out : Type}.
Context {engine : ScoreCalculator DataFrame Store Out}.

(** C6, as amended.  For a recognized metric name, [_check_threshs] raises
    exactly when the thresholds supplied differ from the metric's
    requirement pair; [score] then raises that error before the engine is
    constructed, leaving the store as it was, and otherwise goes on to the
    engine.  The message states the requirement on each threshold; it
    refers to the metric as "This metric" and does not contain the metric's
    name. *)
Theorem threshold_mismatch_rejected (metric : string)
    (threshold_true threshold_pred : option number)
    (Hrec : In metric (keys required_treshs)) :
  exists required,
    lookup metric required_treshs = Some required
    /\ (supplied threshold_true threshold_pred <> requirement required
        <-> _check_threshs metric threshold_true threshold_pred
            = inl (ValueError (mismatch_message required)))
    /\ (supplied threshold_true threshold_pred = requirement required
        <-> _check_threshs metric threshold_true threshold_pred = inr tt)
    /\ (supplied threshold_true threshold_pred <> requirement required
        -> forall cases signals w t x (s : Store),
             score cases signals metric threshold_true threshold_pred w t x s
             = (inl (ValueError (mismatch_message required)), s))
    /\ (supplied threshold_true threshold_pred = requirement required
        -> forall cases signals w t x (s : Store),
             score cases signals metric threshold_true threshold_pred w t x s
             = score_body cases signals metric threshold_true threshold_pred
                          w t x s)
    /\ is_infix (_thresh_text (p_thresh required) ++ " p_thresh")
                (mismatch_message required) = true
    /\ is_infix (_thresh_text (p_hat_thresh required) ++ " p_hat_thresh")
                (mismatch_message required) = true
    /\ is_infix metric (mismatch_message required) = false.
Proof.
  destruct (recognized_has_requirement metric Hrec) as (required & Hreq).
  exists required. split; [exact Hreq|].
  assert (Hcheck : _check_threshs metric threshold_true threshold_pred
                   = check_threshs_correct required threshold_true
                                           threshold_pred).
  { unfold _check_threshs. now rewrite Hreq. }
  destruct (check_threshs_correct_spec required threshold_true threshold_pred)
    as [Hbad Hgood].
  assert (Hdec : supplied threshold_true threshold_pred = requirement required
                 \/ supplied threshold_true threshold_pred
                    <> requirement required).
  { unfold supplied, requirement.
    destruct (is_not_None threshold_true), (is_not_None threshold_pred),
      (p_thresh required), (p_hat_thresh required);
      (left; reflexivity) || (right; discriminate). }
  split; [|split; [|split; [|split; [|split; [|split]]]]].
  - split; [intros H; now rewrite Hcheck, Hbad|].
    intros H Heq. rewrite Hcheck, (Hgood Heq) in H. discriminate H.
  - split; [intros H; now rewrite Hcheck, Hgood|].
    intros H. destruct Hdec as [Heq|Hne]; [exact Heq|].
    rewrite Hcheck, (Hbad Hne) in H. discriminate H.
  - intros Hne cases signals w t x s.
    apply score_check_error. now rewrite Hcheck, Hbad.
  - intros Heq cases signals w t x s.
    apply score_check_passed. now rewrite Hcheck, Hgood.
  - destruct required as [[|] [|]]; reflexivity.
  - destruct required as [[|] [|]]; reflexivity.
  - now apply recognized_not_in_message.
Qed.

(** C10.  [score] is the same computation under the names "sensitivity",
    "recall" and "tpr", under "specificity" and "tnr", and under
    "precision" and "ppv", for all tables, thresholds and options; the
    aliases dispatch to one function and have one requirement pair. *)
Theorem metric_aliases (cases signals : DataFrame)
    (threshold_true threshold_pred : option number)
    (w : option weighting_arg) (t : option (list (string * Q)))
    (x : option string) :
  let run metric :=
    score cases signals metric threshold_true threshold_pred w t x in
  (run "recall" = run "sensitivity" /\ run "tpr" = run "sensitivity")
  /\ run "tnr" = run "specificity"
  /\ run "ppv" = run "precision"
  /\ (lookup "sensitivity" metrics = Some _sensitivity
      /\ lookup "recall" metrics = Some _sensitivity
      /\ lookup "tpr" metrics = Some _sensitivity
      /\ lookup "specificity" metrics = Some _specificity
      /\ lookup "tnr" metrics = Some _specificity
      /\ lookup "precision" metrics = Some _precision
      /\ lookup "ppv" metrics = Some _precision)
  /\ (lookup "recall" required_treshs = lookup "sensitivity" required_treshs
      /\ lookup "tpr" required_treshs = lookup "sensitivity" required_treshs
      /\ lookup "tnr" required_treshs = lookup "specificity" required_treshs
      /\ lookup "ppv" required_treshs = lookup "precision" required_treshs).
Proof.
  intros run. unfold run, score.
  repeat split; reflexivity.
Qed.

(** C9.  In [conf_matrix] a [threshold_true] of [None] is replaced by the
    int 0, and a [threshold_pred] that is [None] or zero is replaced by
    0.5: with [threshold_pred = 0.0] the call is the call with
    [threshold_pred = 0.5]. *)
Theorem conf_matrix_defaults (cases signals : DataFrame)
    (threshold_true threshold_pred : option number)
    (w : option weighting_arg) (t : option (list (string * Q)))
    (x : option string) :
  let half := Float (Finite (1 # 2)) in
  conf_matrix cases signals threshold_true (Some (Float (Finite 0))) w t x
  = conf_matrix cases signals threshold_true (Some half) w t x
  /\ conf_matrix cases signals threshold_true None w t x
     = conf_matrix cases signals threshold_true (Some half) w t x
  /\ (forall z, number_truthy z = false ->
        conf_matrix cases signals threshold_true (Some z) w t x
        = conf_matrix cases signals threshold_true (Some half) w t x)
  /\ conf_matrix cases signals None threshold_pred w t x
     = conf_matrix cases signals (Some (Int 0)) threshold_pred w t x
  /\ conf_matrix cases signals None None w t x
     = bind (new cases signals)
            (fun c => calc_score c confusion_matrix_scorer
                                 (Some (Int 0)) (Some half) w t x).
Proof.
  intros half. unfold conf_matrix.
  split; [reflexivity|]. split; [reflexivity|].
  split; [|split; reflexivity].
  intros z Hz. unfold or_default. rewrite Hz. reflexivity.
Qed.

End InterfaceClaims.

(* ================================================================= *)
(** * The interface on the small engine *)

Section InterfaceRuns.
Import api.

Lemma threshold_mismatch_rejected_witness :
  In "brier" (keys required_treshs)
  /\ _check_threshs "brier" None None
     = inl (ValueError
              "This metric requires p_thresh and must not contain p_hat_thresh.")
  /\ is_infix "brier"
       "This metric requires p_thresh and must not contain p_hat_thresh."
     = false.
Proof.
  assert (Hrec : In "brier" (keys required_treshs)).
  { simpl. right. left. reflexivity. }
  split; [exact Hrec|].
  destruct (threshold_mismatch_rejected
              (sk := fixtures.echo_sklearn) (engine := fixtures.echo_engine)
              "brier" None None Hrec)
    as (required & Hreq & Hbad & _ & _ & _ & _ & _ & Hname).
  simpl in Hreq. injection Hreq as <-.
  split; [|exact Hname].
  apply Hbad. discriminate.
Defined.

(** C6 as stated fails on the message: for "brier" called without
    thresholds the error text does not contain the metric's name. *)
Lemma threshold_message_counterexample :
  In "brier" (keys required_treshs)
  /\ supplied None None <> requirement {| p_thresh := true; p_hat_thresh := false |}
  /\ lookup "brier" required_treshs
     = Some {| p_thresh := true; p_hat_thresh := false |}
  /\ _check_threshs "brier" None None
     = inl (ValueError
              "This metric requires p_thresh and must not contain p_hat_thresh.")
  /\ is_infix "brier"
       "This metric requires p_thresh and must not contain p_hat_thresh."
     = false.
Proof.
  split; [simpl; right; left; reflexivity|].
  split; [discriminate|].
  repeat split; reflexivity.
Qed.

Lemma conf_matrix_defaults_witness :
  conf_matrix (sk := fixtures.echo_sklearn) (engine := fixtures.echo_engine)
              tt tt None (Some (Int 0)) None None None
  = conf_matrix (sk := fixtures.echo_sklearn) (engine := fixtures.echo_engine)
                tt tt None (Some (Float (Finite (1 # 2)))) None None None.
Proof.
  destruct (conf_matrix_defaults
              (sk := fixtures.echo_sklearn) (engine := fixtures.echo_engine)
              tt tt None None None None None) as (_ & _ & Hzero & _).
  apply (Hzero (Int 0)). reflexivity.
Defined.

(** The engine is handed the replaced thresholds; the constructor and
    [calc_score] each count one call in the store. *)
Example conf_matrix_run :
  conf_matrix (sk := fixtures.echo_sklearn) (engine := fixtures.echo_engine)
              tt tt None (Some (Float (Finite 0))) None None None (3, 0%nat)
  = (inr (3, inr (Array2 [[1; 0]; [0; 1]]),
          Some (Int 0), Some (Float (Finite (1 # 2)))),
     (3, 2%nat)).
Proof. reflexivity. Qed.

(** An unknown metric name raises the [KeyError] that lists the
    recognized names in the order of the table. *)
Example unknown_metric :
  _check_threshs "accuracy" None None
  = inl (KeyError
           ("This metric is not recognized. Please use one of the following: "
            ++ "f1, brier, auc, sensitivity, recall, tpr, specificity, tnr, "
            ++ "fpr, fnr, precision, ppv, npv, matthews, r2, mse, mae")).
Proof. reflexivity. Qed.

End InterfaceRuns.

(* ================================================================= *)
(** * Further properties of the interface *)

Section Dispatch.
Import api.
Context {sk : Sklearn}.
Context {DataFrame Store Out : Type}.
Context {engine : ScoreCalculator DataFrame Store Out}.

Lemma lookup_None_iff {A : Type} (key : string) (d : list (string * A)) :
  lookup key d = None <-> ~ In key (keys d).
Proof.
  induction d as [|[k v] d IH]; simpl.
  - tauto.
  - destruct (String.eqb_spec key k) as [->|Hne].
    + split; [discriminate | intros H; exfalso; apply H; now left].
    + rewrite IH. split.
      * intros H [Hk|Hk]; [now apply Hne | now apply H].
      * intros H Hk. apply H. now right.
Qed.

Lemma lookup_Some_In {A : Type} (key : string) (d : list (string * A))
    (v : A) :
  lookup key d = Some v -> In key (keys d).
Proof.
  intros H. destruct (in_dec string_dec key (keys d)) as [Hin|Hout].
  - exact Hin.
  - apply lookup_None_iff in Hout. congruence.
Qed.

Lemma unknown_metric_message_eq :
  "This metric is not recognized. "
  ++ "Please use one of the following: "
  ++ String.concat ", " (keys required_treshs)
  = unknown_metric_message.
Proof. reflexivity. Qed.

Lemma check_threshs_unknown (metric : string) (a b : option number) :
  ~ In metric (keys required_treshs) ->
  _check_threshs metric a b = inl (KeyError unknown_metric_message).
Proof.
  intros H. unfold _check_threshs.
  rewrite (proj2 (lookup_None_iff metric required_treshs) H).
  now rewrite unknown_metric_message_eq.
Qed.

(** X1.  A metric name that is not a key of the requirement table makes
    [_check_threshs] raise the [KeyError] that lists the recognized names,
    whatever thresholds are supplied; [score] raises it before the engine is
    constructed and leaves the store as it was.  Every recognized name
    occurs in the message. *)
Theorem unknown_metric_rejected (metric : string)
    (threshold_true threshold_pred : option number)
    (Hunknown : ~ In metric (keys required_treshs)) :
  _check_threshs metric threshold_true threshold_pred
  = inl (KeyError unknown_metric_message)
  /\ (forall cases signals w t x (s : Store),
        score cases signals metric threshold_true threshold_pred w t x s
        = (inl (KeyError unknown_metric_message), s))
  /\ (forall name, In name (keys required_treshs) ->
        is_infix name unknown_metric_message = true).
Proof.
  pose proof (check_threshs_unknown metric threshold_true threshold_pred
                                     Hunknown) as Hcheck.
  split; [exact Hcheck|]. split.
  - intros cases signals w t x s. now apply score_check_error.
  - simpl. intros name H.
    repeat (destruct H as [<- | H]; [vm_compute; reflexivity|]).
    destruct H.
Qed.

(** X2.  Every name the threshold check recognizes has a scorer in the
    dispatch table and conversely, and neither table registers a name
    twice. *)
Theorem dispatch_tables_agree (metric : string) :
  ((exists required, lookup metric required_treshs = Some required)
   <-> (exists f, lookup metric metrics = Some f))
  /\ NoDup (keys required_treshs)
  /\ NoDup (keys metrics).
Proof.
  split; [|split].
  - split; intros [v Hv].
    + apply lookup_Some_In in Hv.
      destruct (lookup metric metrics) as [f|] eqn:Hf; [now exists f|].
      apply lookup_None_iff in Hf. rewrite metrics_keys in Hf. tauto.
    + apply lookup_Some_In in Hv. rewrite metrics_keys in Hv.
      now apply recognized_has_requirement.
  - simpl. repeat (constructor; [simpl; intuition discriminate|]).
    constructor.
  - rewrite metrics_keys.
    simpl. repeat (constructor; [simpl; intuition discriminate|]).
    constructor.
Qed.

(** X3.  A call of [score] has one of three outcomes: the [KeyError] for an
    unrecognized name, the [ValueError] for thresholds that do not match the
    requirement of the metric (both before the engine is constructed, with
    the store untouched), or the run of the engine with the scorer
    registered under the name.  The lookup in the dispatch table never
    raises. *)
Theorem score_outcomes (cases signals : DataFrame) (metric : string)
    (threshold_true threshold_pred : option number)
    (w : option weighting_arg) (t : option (list (string * Q)))
    (x : option string) (s : Store) :
  let outcome :=
    score cases signals metric threshold_true threshold_pred w t x s in
  (~ In metric (keys required_treshs)
   /\ outcome = (inl (KeyError unknown_metric_message), s))
  \/ (exists required,
        lookup metric required_treshs = Some required
        /\ supplied threshold_true threshold_pred <> requirement required
        /\ outcome = (inl (ValueError (mismatch_message required)), s))
  \/ (exists required f,
        lookup metric required_treshs = Some required
        /\ supplied threshold_true threshold_pred = requirement required
        /\ lookup metric metrics = Some f
        /\ outcome
           = bind (new cases signals)
                  (fun c => calc_score c f threshold_true threshold_pred w t x)
                  s).
Proof.
  intros outcome. unfold outcome.
  destruct (in_dec string_dec metric (keys required_treshs)) as [Hin|Hout].
  - destruct (recognized_has_requirement metric Hin) as (required & Hreq).
    assert (Hcheck : _check_threshs metric threshold_true threshold_pred
                     = check_threshs_correct required threshold_true
                                             threshold_pred).
    { unfold _check_threshs. now rewrite Hreq. }
    destruct (check_threshs_correct_spec required threshold_true threshold_pred)
      as [Hbad Hgood].
    assert (Hdec : {supplied threshold_true threshold_pred
                    = requirement required}
                   + {supplied threshold_true threshold_pred
                      <> requirement required}).
    { unfold supplied, requirement. repeat decide equality. }
    destruct Hdec as [Heq|Hne].
    + right. right.
      destruct (recognized_has_scorer metric Hin) as (f & Hf).
      exists required, f. split; [exact Hreq|]. split; [exact Heq|].
      assert (Hlook : lookup metric metrics = Some f).
      { unfold getitem in Hf.
        destruct (lookup metric metrics); [congruence | discriminate]. }
      split; [exact Hlook|].
      rewrite score_check_passed by (now rewrite Hcheck, Hgood).
      unfold score_body, bind, lift.
      destruct (new cases signals s) as [[e|c] s']; [reflexivity|].
      now rewrite Hf.
    + right. left. exists required.
      split; [exact Hreq|]. split; [exact Hne|].
      apply score_check_error. now rewrite Hcheck, Hbad.
  - left. split; [exact Hout|].
    apply score_check_error. now apply check_threshs_unknown.
Qed.

(** X4.  The threshold check looks only at which thresholds are present,
    never at their values: two calls that supply the same thresholds, with
    any numbers, have the same outcome. *)
Theorem check_threshs_presence_only (metric : string)
    (a b a' b' : option number)
    (Ha : is_not_None a = is_not_None a')
    (Hb : is_not_None b = is_not_None b') :
  _check_threshs metric a b = _check_threshs metric a' b'.
Proof.
  unfold _check_threshs.
  destruct (lookup metric required_treshs) as [required|]; [|reflexivity].
  unfold check_threshs_correct. simpl. now rewrite Ha, Hb.
Qed.

(** X5.  No recognized metric accepts a [threshold_pred] without a
    [threshold_true]: such a call of [score] always raises the
    [ValueError] of the threshold check. *)
Theorem threshold_pred_alone_rejected (metric : string) (b : number)
    (Hrec : In metric (keys required_treshs)) :
  exists required,
    lookup metric required_treshs = Some required
    /\ _check_threshs metric None (Some b)
       = inl (ValueError (mismatch_message required))
    /\ forall cases signals w t x (s : Store),
         score cases signals metric None (Some b) w t x s
         = (inl (ValueError (mismatch_message required)), s).
Proof.
  assert (H : exists required,
             lookup metric required_treshs = Some required
             /\ _check_threshs metric None (Some b)
                = inl (ValueError (mismatch_message required))).
  { simpl in Hrec.
    repeat (destruct Hrec as [<- | Hrec];
            [eexists; split; reflexivity|]).
    destruct Hrec. }
  destruct H as (required & Hreq & Hcheck).
  exists required. split; [exact Hreq|]. split; [exact Hcheck|].
  intros cases signals w t x s. now apply score_check_error.
Qed.

(** X6.  The text of the [ValueError] determines the requirement: two
    requirement pairs whose checks raise the same error are equal. *)
Theorem mismatch_error_determines_requirement
    (required required' : _ThreshRequired) (a b a' b' : option number)
    (e : exn)
    (H : check_threshs_correct required a b = inl e)
    (H' : check_threshs_correct required' a' b' = inl e) :
  required = required'.
Proof.
  destruct required as [[|] [|]], required' as [[|] [|]];
    try reflexivity; exfalso;
    destruct a, b; simpl in H; try discriminate H;
    destruct a', b'; simpl in H'; try discriminate H';
    rewrite <- H' in H; discriminate H.
Qed.

(** X7.  [conf_matrix] runs no threshold check: for all thresholds it is the
    run of the engine with the confusion matrix as scorer.  The engine is
    always handed two numbers; a [threshold_true] that is given is passed on
    as it is, zero included, and so is a [threshold_pred] that is not zero;
    the [threshold_pred] handed on is never zero. *)
Theorem conf_matrix_thresholds (cases signals : DataFrame)
    (threshold_true threshold_pred : option number)
    (w : option weighting_arg) (t : option (list (string * Q)))
    (x : option string) :
  exists a b,
    conf_matrix cases signals threshold_true threshold_pred w t x
    = bind (new cases signals)
           (fun c => calc_score c confusion_matrix_scorer
                                (Some a) (Some b) w t x)
    /\ number_truthy b = true
    /\ (forall v, threshold_true = Some v -> a = v)
    /\ (threshold_true = None -> a = Int 0)
    /\ (forall z, threshold_pred = Some z -> number_truthy z = true -> b = z).
Proof.
  exists (match threshold_true with None => Int 0 | Some v => v end),
         (or_default threshold_pred (Float (Finite (1 # 2)))).
  split; [reflexivity|]. split; [|split; [|split]].
  - unfold or_default. destruct threshold_pred as [z|]; [|reflexivity].
    destruct (number_truthy z) eqn:Hz; [exact Hz | reflexivity].
  - intros v ->. reflexivity.
  - intros ->. reflexivity.
  - intros z -> Hz. unfold or_default. now rewrite Hz.
Qed.

End Dispatch.

Section Adapters.
Import api.
Context {sk : Sklearn}.
Local Open Scope Q_scope.

Lemma unpack4_spec (xs : list Q) :
  (List.length xs = 4%nat ->
   exists tn fp fn tp,
     xs = [tn; fp; fn; tp] /\ unpack4 xs = inr (tn, fp, fn, tp))
  /\ ((List.length xs < 4)%nat ->
      unpack4 xs
      = inl (ValueError
               ("not enough values to unpack (expected 4, got "
                ++ str_of_nat (List.length xs) ++ ")")))
  /\ ((4 < List.length xs)%nat ->
      unpack4 xs = inl (ValueError "too many values to unpack (expected 4)")).
Proof.
  destruct xs as [|a [|b [|c [|d [|e xs]]]]]; simpl;
    (split; [|split]); intros H; try lia; try reflexivity.
  exists a, b, c, d. split; reflexivity.
Qed.

(** An adapter is the flattened matrix, unpacked, followed by one
    division. *)
Lemma adapter_shape (f : Scorer) :
  In f confusion_adapters ->
  exists pick : Q * Q * Q * Q -> Q * Q,
    forall y_true y_pred sample_weight,
      f y_true y_pred sample_weight
      = rbind (ravelled_confusion y_true y_pred sample_weight)
              (fun c => inr (Scalar (np_div (fst (pick c))
                                            (fst (pick c) + snd (pick c))))).
Proof.
  unfold confusion_adapters. simpl.
  intros [<- | [<- | [<- | [<- | [<- | [<- | []]]]]]].
  - exists (fun '(tn, fp, fn, tp) => (tp, fn)).
    intros. unfold _sensitivity, rbind.
    destruct (ravelled_confusion _ _ _) as [e|[[[tn fp] fn] tp]]; reflexivity.
  - exists (fun '(tn, fp, fn, tp) => (tn, fp)).
    intros. unfold _specificity, rbind.
    destruct (ravelled_confusion _ _ _) as [e|[[[tn fp] fn] tp]]; reflexivity.
  - exists (fun '(tn, fp, fn, tp) => (fp, tn)).
    intros. unfold _fpr, rbind.
    destruct (ravelled_confusion _ _ _) as [e|[[[tn fp] fn] tp]]; reflexivity.
  - exists (fun '(tn, fp, fn, tp) => (fn, tp)).
    intros. unfold _fnr, rbind.
    destruct (ravelled_confusion _ _ _) as [e|[[[tn fp] fn] tp]]; reflexivity.
  - exists (fun '(tn, fp, fn, tp) => (tp, fp)).
    intros. unfold _precision, rbind.
    destruct (ravelled_confusion _ _ _) as [e|[[[tn fp] fn] tp]]; reflexivity.
  - exists (fun '(tn, fp, fn, tp) => (tn, fn)).
    intros. unfold _npv, rbind.
    destruct (ravelled_confusion _ _ _) as [e|[[[tn fp] fn] tp]]; reflexivity.
Qed.

(** X8.  Each of the six adapters raises exactly when the confusion matrix
    of the library raises (the same error) or does not flatten to four
    entries (the [ValueError] of the unpacking, which names the count when
    there are too few); otherwise it returns a scalar.  A zero denominator
    never raises. *)
Theorem adapter_outcome (f : Scorer) (y_true y_pred : array)
    (sample_weight : option array) (Hf : In f confusion_adapters) :
  (forall e, confusion_matrix y_true y_pred sample_weight = inl e ->
             f y_true y_pred sample_weight = inl e)
  /\ (forall m, confusion_matrix y_true y_pred sample_weight = inr m ->
                List.length (ravel m) = 4%nat ->
                exists v, f y_true y_pred sample_weight = inr (Scalar v))
  /\ (forall m, confusion_matrix y_true y_pred sample_weight = inr m ->
                (List.length (ravel m) < 4)%nat ->
                f y_true y_pred sample_weight
                = inl (ValueError
                         ("not enough values to unpack (expected 4, got "
                          ++ str_of_nat (List.length (ravel m)) ++ ")")))
  /\ (forall m, confusion_matrix y_true y_pred sample_weight = inr m ->
                (4 < List.length (ravel m))%nat ->
                f y_true y_pred sample_weight
                = inl (ValueError "too many values to unpack (expected 4)")).
Proof.
  destruct (adapter_shape f Hf) as (pick & Hshape).
  rewrite Hshape. unfold ravelled_confusion, rbind.
  split; [|split; [|split]].
  - intros e ->. reflexivity.
  - intros m -> Hlen.
    destruct (proj1 (unpack4_spec (ravel m)) Hlen)
      as (tn & fp & fn & tp & _ & ->).
    eexists. reflexivity.
  - intros m -> Hlen.
    now rewrite (proj1 (proj2 (unpack4_spec (ravel m))) Hlen).
  - intros m -> Hlen.
    now rewrite (proj2 (proj2 (unpack4_spec (ravel m))) Hlen).
Qed.

Lemma np_div_share (a b : Q) :
  0 <= a -> 0 <= b ->
  share_outcome (inr (Scalar (np_div a (a + b)))) a b.
Proof.
  intros Ha Hb. unfold share_outcome, np_div. split.
  - intros Hsum.
    assert (Hz : a == 0) by lra.
    apply Qeq_bool_iff in Hsum. apply Qeq_bool_iff in Hz.
    now rewrite Hsum, Hz.
  - intros Hsum.
    assert (Hb0 : Qeq_bool (a + b) 0 = false).
    { destruct (Qeq_bool (a + b) 0) eqn:H; [|reflexivity].
      apply Qeq_bool_iff in H. contradiction. }
    rewrite Hb0.
    assert (Hpos : 0 < a + b) by lra.
    exists (a / (a + b)). split; [reflexivity|].
    split; [reflexivity|]. split.
    + apply Qle_shift_div_l; [exact Hpos | lra].
    + apply Qle_shift_div_r; [exact Hpos | lra].
Qed.

(** X9.  On a two-by-two confusion matrix [[tn, fp], [fn, tp]] without
    negative entries each of the six adapters returns nan exactly when its
    denominator is zero, and otherwise its quotient, a value between 0 and
    1: tp/(tp+fn), tn/(tn+fp), fp/(fp+tn), fn/(fn+tp), tp/(tp+fp) and
    tn/(tn+fn).  It returns no infinity and raises nothing. *)
Theorem adapter_range (y_true y_pred : array)
    (sample_weight : option array) (tn fp fn tp : Q)
    (Hm : confusion_matrix y_true y_pred sample_weight
          = inr [[tn; fp]; [fn; tp]])
    (Hnonneg : 0 <= tn /\ 0 <= fp /\ 0 <= fn /\ 0 <= tp) :
  share_outcome (_sensitivity y_true y_pred sample_weight) tp fn
  /\ share_outcome (_specificity y_true y_pred sample_weight) tn fp
  /\ share_outcome (_fpr y_true y_pred sample_weight) fp tn
  /\ share_outcome (_fnr y_true y_pred sample_weight) fn tp
  /\ share_outcome (_precision y_true y_pred sample_weight) tp fp
  /\ share_outcome (_npv y_true y_pred sample_weight) tn fn.
Proof.
  destruct Hnonneg as (Htn & Hfp & Hfn & Htp).
  unfold _sensitivity, _specificity, _fpr, _fnr, _precision, _npv,
    ravelled_confusion, rbind.
  rewrite Hm. simpl.
  repeat split; apply np_div_share; assumption.
Qed.

(** X10.  The false positive rate is the complement of the specificity and
    the false negative rate the complement of the sensitivity: whenever
    either of a pair is a finite value so is the other, and the two add up
    to 1 (in exact arithmetic).  On a two-by-two matrix both of a pair are
    finite as soon as their common denominator is not zero. *)
Theorem rates_complement (y_true y_pred : array)
    (sample_weight : option array) :
  (forall v, _specificity y_true y_pred sample_weight
             = inr (Scalar (Finite v)) ->
     exists v', _fpr y_true y_pred sample_weight = inr (Scalar (Finite v'))
                /\ v + v' == 1)
  /\ (forall v', _fpr y_true y_pred sample_weight
                 = inr (Scalar (Finite v')) ->
        exists v, _specificity y_true y_pred sample_weight
                  = inr (Scalar (Finite v))
                  /\ v + v' == 1)
  /\ (forall v, _sensitivity y_true y_pred sample_weight
                = inr (Scalar (Finite v)) ->
        exists v', _fnr y_true y_pred sample_weight = inr (Scalar (Finite v'))
                   /\ v + v' == 1)
  /\ (forall v', _fnr y_true y_pred sample_weight
                 = inr (Scalar (Finite v')) ->
        exists v, _sensitivity y_true y_pred sample_weight
                  = inr (Scalar (Finite v))
                  /\ v + v' == 1)
  /\ (forall tn fp fn tp,
        confusion_matrix y_true y_pred sample_weight
        = inr [[tn; fp]; [fn; tp]] ->
        (~ tn + fp == 0 ->
         exists v v',
           _specificity y_true y_pred sample_weight = inr (Scalar (Finite v))
           /\ _fpr y_true y_pred sample_weight = inr (Scalar (Finite v'))
           /\ v == tn / (tn + fp) /\ v' == fp / (fp + tn))
        /\ (~ tp + fn == 0 ->
            exists v v',
              _sensitivity y_true y_pred sample_weight
              = inr (Scalar (Finite v))
              /\ _fnr y_true y_pred sample_weight = inr (Scalar (Finite v'))
              /\ v == tp / (tp + fn) /\ v' == fn / (fn + tp))).
Proof.
  assert (Hpair :
            forall a b v, np_div a (a + b) = Finite v ->
              exists v', np_div b (b + a) = Finite v' /\ v + v' == 1).
  { intros a b v. unfold np_div.
    destruct (Qeq_bool (a + b) 0) eqn:Hsum.
    - destruct (Qeq_bool a 0); [discriminate|].
      destruct (Qle_bool 0 a); discriminate.
    - intros [= <-]. apply Qeq_bool_neq in Hsum.
      assert (Hsum' : Qeq_bool (b + a) 0 = false).
      { destruct (Qeq_bool (b + a) 0) eqn:H; [|reflexivity].
        apply Qeq_bool_iff in H. exfalso. apply Hsum. lra. }
      rewrite Hsum'. eexists. split; [reflexivity|].
      field; repeat split; intros H; apply Hsum; lra. }
  assert (Hfinite :
            forall a b, ~ a + b == 0 ->
              exists v v', np_div a (a + b) = Finite v
                           /\ np_div b (b + a) = Finite v'
                           /\ v == a / (a + b) /\ v' == b / (b + a)).
  { intros a b Hsum. unfold np_div.
    assert (H1 : Qeq_bool (a + b) 0 = false).
    { destruct (Qeq_bool (a + b) 0) eqn:H; [|reflexivity].
      apply Qeq_bool_iff in H. contradiction. }
    assert (H2 : Qeq_bool (b + a) 0 = false).
    { destruct (Qeq_bool (b + a) 0) eqn:H; [|reflexivity].
      apply Qeq_bool_iff in H. exfalso. apply Hsum. lra. }
    rewrite H1, H2. do 2 eexists. repeat split; reflexivity. }
  split; [|split; [|split; [|split]]].
  1-4: intros v;
    unfold _specificity, _fpr, _sensitivity, _fnr, rbind;
    destruct (ravelled_confusion y_true y_pred sample_weight)
      as [e|[[[tn fp] fn] tp]]; try discriminate;
    intros [= H]; apply Hpair in H;
    destruct H as (v' & -> & Hv); exists v';
    (split; [reflexivity | lra]).
  intros tn fp fn tp Hm.
  unfold _specificity, _fpr, _sensitivity, _fnr, ravelled_confusion, rbind.
  rewrite Hm. simpl. split; intros Hsum.
  - destruct (Hfinite tn fp Hsum) as (v & v' & -> & -> & Hv & Hv').
    exists v, v'. repeat split; assumption.
  - destruct (Hfinite tp fn Hsum) as (v & v' & -> & -> & Hv & Hv').
    exists v, v'. repeat split; assumption.
Qed.

End Adapters.

Section FurtherRuns.
Import api.
Local Open Scope Q_scope.

Lemma accuracy_not_recognized : ~ In "accuracy" (keys required_treshs).
Proof.
  simpl. intros H.
  repeat (destruct H as [H | H]; [discriminate H|]).
  exact H.
Qed.

Lemma unknown_metric_rejected_witness :
  _check_threshs "accuracy" (Some (Int 0)) None
  = inl (KeyError unknown_metric_message)
  /\ score (sk := fixtures.echo_sklearn) (engine := fixtures.echo_engine)
           tt tt "accuracy" (Some (Int 0)) None None None None (3, 0%nat)
     = (inl (KeyError unknown_metric_message), (3, 0%nat)).
Proof.
  destruct (unknown_metric_rejected
              (sk := fixtures.echo_sklearn) (engine := fixtures.echo_engine)
              "accuracy" (Some (Int 0)) None accuracy_not_recognized)
    as (Hcheck & Hscore & _).
  split; [exact Hcheck | apply Hscore].
Defined.

Lemma check_threshs_presence_only_witness :
  _check_threshs "f1" (Some (Float NaN)) (Some (Int (-3)))
  = _check_threshs "f1" (Some (Float (Finite (1 # 2))))
                        (Some (Float (Finite (1 # 2)))).
Proof.
  apply check_threshs_presence_only; reflexivity.
Defined.

Lemma threshold_pred_alone_rejected_witness :
  In "brier" (keys required_treshs)
  /\ exists msg,
       _check_threshs "brier" None (Some (Float (Finite (1 # 2))))
       = inl (ValueError msg).
Proof.
  assert (Hrec : In "brier" (keys required_treshs)).
  { simpl. right. left. reflexivity. }
  split; [exact Hrec|].
  destruct (threshold_pred_alone_rejected
              (sk := fixtures.echo_sklearn) (engine := fixtures.echo_engine)
              "brier" (Float (Finite (1 # 2))) Hrec)
    as (required & _ & Hcheck & _).
  eexists. exact Hcheck.
Defined.

Lemma mismatch_error_determines_requirement_witness :
  {| p_thresh := true; p_hat_thresh := false |}
  = {| p_thresh := true; p_hat_thresh := false |}.
Proof.
  apply (mismatch_error_determines_requirement
           {| p_thresh := true; p_hat_thresh := false |}
           {| p_thresh := true; p_hat_thresh := false |}
           None None (Some (Int 1)) (Some (Int 1))
           (ValueError
              "This metric requires p_thresh and must not contain p_hat_thresh."));
    reflexivity.
Defined.

(** A one-by-one matrix, which the library returns when a single class
    occurs, cannot be unpacked. *)
Lemma adapter_outcome_witness :
  _sensitivity (sk := table_sklearn [[5]]) [1; 1] [1; 1] None
  = inl (ValueError "not enough values to unpack (expected 4, got 1)").
Proof.
  destruct (adapter_outcome (sk := table_sklearn [[5]])
              (_sensitivity (sk := table_sklearn [[5]])) [1; 1] [1; 1] None)
    as (_ & _ & Hshort & _).
  - simpl. left. reflexivity.
  - apply (Hshort [[5]]); [reflexivity | simpl; lia].
Defined.

Lemma adapter_range_witness :
  share_outcome
    (_precision (sk := table_sklearn [[3; 1]; [2; 4]]) [0; 1] [0; 1] None)
    4 1
  /\ share_outcome
       (_sensitivity (sk := table_sklearn [[7; 2]; [0; 0]]) [0] [0] None)
       0 0.
Proof.
  split.
  - apply (adapter_range (sk := table_sklearn [[3; 1]; [2; 4]])
             [0; 1] [0; 1] None 3 1 2 4).
    + reflexivity.
    + repeat split; discriminate.
  - apply (adapter_range (sk := table_sklearn [[7; 2]; [0; 0]])
             [0] [0] None 7 2 0 0).
    + reflexivity.
    + repeat split; discriminate.
Defined.

Lemma rates_complement_witness :
  (exists v',
     _fpr (sk := table_sklearn [[3; 1]; [2; 4]]) [0; 1] [0; 1] None
     = inr (Scalar (Finite v'))
     /\ 3 / (3 + 1) + v' == 1)
  /\ (exists v,
        _sensitivity (sk := table_sklearn [[3; 1]; [2; 4]]) [0; 1] [0; 1] None
        = inr (Scalar (Finite v))
        /\ v + 2 / (2 + 4) == 1).
Proof.
  destruct (rates_complement (sk := table_sklearn [[3; 1]; [2; 4]])
              [0; 1] [0; 1] None) as (Hspec & _ & _ & Hfnr & _).
  split.
  - apply Hspec. reflexivity.
  - apply Hfnr. reflexivity.
Defined.

(** The six adapters on the table [[3, 1], [2, 4]]. *)
Example adapters_on_counts :
  let run (f : Sklearn -> Scorer) :=
    f (table_sklearn [[3; 1]; [2; 4]]) [0; 1] [0; 1] None in
  run (@_sensitivity) = inr (Scalar (Finite (4 / (4 + 2))))
  /\ run (@_specificity) = inr (Scalar (Finite (3 / (3 + 1))))
  /\ run (@_fpr) = inr (Scalar (Finite (1 / (1 + 3))))
  /\ run (@_fnr) = inr (Scalar (Finite (2 / (2 + 4))))
  /\ run (@_precision) = inr (Scalar (Finite (4 / (4 + 1))))
  /\ run (@_npv) = inr (Scalar (Finite (3 / (3 + 2)))).
Proof. repeat split; reflexivity. Qed.

(** With no positive in the truth the sensitivity is nan, not an error. *)
Example sensitivity_without_positives :
  _sensitivity (sk := table_sklearn [[7; 2]; [0; 0]]) [0] [0] None
  = inr (Scalar NaN).
Proof. reflexivity. Qed.

End FurtherRuns.
